(** * llmops-promptflow-template: pf-in-aml-pipeline

    A shallow embedding of the two Python programs of
    [web_classification/pf-in-aml-pipeline]:

    - [src/postprocess.py]   (module [Postprocess] below),
    - [run_pipeline.py]      (module [RunPipeline] below),

    together with the properties that the specification states about them.

    Python statements that touch the process state (standard streams, the
    module-level list, the machine-learning workspace) are written in a small
    state-and-exception monad ([Py.M]).  Library calls whose code is not part
    of the repository (pandas, the Azure ML SDK) are parameters of the
    sections that use them. *)

From Stdlib Require Import ZArith Lia Ascii String.
From stdpp Require Import gmap strings list.

Open Scope Z_scope.
Open Scope string_scope.
Open Scope list_scope.

(* ===================================================================== *)
(** ** Python: exceptions and the state-and-exception monad *)
(* ===================================================================== *)

Module Py.

(** The exceptions that can travel through the two programs. *)
Inductive Exn : Type :=
| SystemExit (code : Z)          (* raised by argparse's [parser.exit] *)
| IndexError                     (* a sequence subscript out of range *)
| LibError (kind : string).      (* any exception raised inside a library *)

Inductive Outcome (A : Type) : Type :=
| Ret (a : A)
| Raise (e : Exn).
Arguments Ret {A} a.
Arguments Raise {A} e.

(** A computation over a world [W]: the world it leaves behind is kept
    also when an exception is raised, as in Python. *)
Definition M (W A : Type) : Type := W -> Outcome A * W.

Definition ret {W A} (a : A) : M W A := fun w => (Ret a, w).

Definition bind {W A B} (m : M W A) (k : A -> M W B) : M W B :=
  fun w =>
    match m w with
    | (Ret a, w') => k a w'
    | (Raise e, w') => (Raise e, w')
    end.

Definition raise {W A} (e : Exn) : M W A := fun w => (Raise e, w).

Definition get {W} : M W W := fun w => (Ret w, w).
Definition modify {W} (f : W -> W) : M W unit := fun w => (Ret tt, f w).

(** Lifting of a pure outcome (a library call that does not write). *)
Definition lift {W A} (o : Outcome A) : M W A := fun w => (o, w).

(** [sequence[i]]: raises [IndexError] out of range. *)
Definition subscript {W A} (l : list A) (i : nat) : M W A :=
  match l !! i with
  | Some x => ret x
  | None => raise IndexError
  end.

(** What the interpreter does with the outcome of a script: the exit
    status of the process.  An uncaught exception other than [SystemExit]
    ends the process with status 1 after printing a traceback. *)
Definition exit_status {A} (o : Outcome A) : Z :=
  match o with
  | Ret _ => 0
  | Raise (SystemExit c) => c
  | Raise _ => 1
  end.

End Py.

Declare Scope py_scope.
Delimit Scope py_scope with py.
Notation "x <- m ;; k" := (Py.bind m (fun x => k))
  (at level 100, m at next level, right associativity) : py_scope.
Notation "m ;;; k" := (Py.bind m (fun _ => k))
  (at level 100, right associativity) : py_scope.

(* ===================================================================== *)
(** ** Python strings *)
(* ===================================================================== *)

Module Str.

(** [c in s] for a one-character [c]. *)
Fixpoint contains (c : ascii) (s : string) : bool :=
  match s with
  | EmptyString => false
  | String d s' => if Ascii.eqb c d then true else contains c s'
  end.

(** [s.startswith(p)]. *)
Definition startswith (s p : string) : bool := String.prefix p s.

(** [s.split(c, 1)] when [c in s]: the text before and after the first
    occurrence of [c]. *)
Fixpoint split_once (c : ascii) (s : string) : string * string :=
  match s with
  | EmptyString => (EmptyString, EmptyString)
  | String d s' =>
      if Ascii.eqb c d then (EmptyString, s')
      else let '(a, b) := split_once c s' in (String d a, b)
  end.

(** [s[:2]] and [s[2:]]. *)
Definition take2 (s : string) : string :=
  match s with
  | String a (String b _) => String a (String b EmptyString)
  | _ => s
  end.
Definition drop2 (s : string) : string :=
  match s with
  | String _ (String _ r) => r
  | _ => EmptyString
  end.

Definition is_digit (c : ascii) : bool :=
  let n := nat_of_ascii c in ((48 <=? n)%nat && (n <=? 57)%nat)%bool.

Fixpoint all_digits (s : string) : bool :=
  match s with
  | EmptyString => true
  | String c s' => (is_digit c && all_digits s')%bool
  end.

Definition nonempty (s : string) : bool :=
  match s with EmptyString => false | _ => true end.

(** The regular expression [^-\d+$|^-\d*\.\d+$] of argparse. *)
Definition negative_number (s : string) : bool :=
  match s with
  | String "-"%char r =>
      ((nonempty r && all_digits r)
       || (contains "."%char r &&
           let '(a, b) := split_once "."%char r in
           all_digits a && nonempty b && all_digits b))%bool
  | _ => false
  end.

End Str.

(* ===================================================================== *)
(** ** argparse, for the parser that [parse_args] builds *)
(* ===================================================================== *)

(** [argparse.ArgumentParser(allow_abbrev=False, ...)] with the single
    argument [--input_data_path] (a [store] action with [type=str], one
    value, default [None]) and the [-h]/[--help] action that argparse adds by
    default.  The definitions follow [ArgumentParser._parse_optional],
    [_get_option_tuples] and [_parse_known_args] of CPython 3.8 to 3.11 for
    a parser without positional arguments. *)
Module Argparse.

Inductive Action : Type := HelpAction | StoreInputDataPath.

(** [parser._option_string_actions]. *)
Definition option_string_actions : list (string * Action) :=
  [ ("-h", HelpAction); ("--help", HelpAction);
    ("--input_data_path", StoreInputDataPath) ].

Fixpoint assoc (tbl : list (string * Action)) (s : string) : option Action :=
  match tbl with
  | [] => None
  | (k, a) :: tbl' => if String.eqb s k then Some a else assoc tbl' s
  end.

(** [argparse.Namespace] of this parser. *)
Record Namespace : Type := { input_data_path : option string }.

(** The result of [_parse_optional] on an option-looking string: the
    action (if the option string is known), the option string and the
    explicit argument (the text after [=], or the tail of a short flag). *)
Definition OptionTuple : Type := option Action * string * option string.

(** [_get_option_tuples] on a string with one leading dash: short flags
    with the rest of the string as explicit argument, and option strings
    that the string abbreviates. *)
Definition get_option_tuples (arg_string : string) : list OptionTuple :=
  let short_option_prefix := Str.take2 arg_string in
  let short_explicit_arg := Str.drop2 arg_string in
  flat_map
    (fun '(option_string, action) =>
       if String.eqb option_string short_option_prefix
       then [(Some action, option_string, Some short_explicit_arg)]
       else if Str.startswith option_string arg_string
            then [(Some action, option_string, None)]
            else [])
    option_string_actions.

Inductive Classified : Type :=
| Positional                       (* [_parse_optional] returned [None] *)
| Optional (t : OptionTuple)
| Ambiguous.                       (* [parser.error]: ambiguous option *)

(** [_parse_optional]. *)
Definition parse_optional (arg_string : string) : Classified :=
  match arg_string with
  | EmptyString => Positional
  | String c _ =>
      if negb (Ascii.eqb c "-"%char) then Positional else
      match assoc option_string_actions arg_string with
      | Some action => Optional (Some action, arg_string, None)
      | None =>
          if (String.length arg_string =? 1)%nat then Positional else
          let by_equals :=
            if Str.contains "="%char arg_string then
              let '(option_string, explicit_arg) :=
                Str.split_once "="%char arg_string in
              match assoc option_string_actions option_string with
              | Some action => Some (Some action, option_string, Some explicit_arg)
              | None => None
              end
            else None in
          match by_equals with
          | Some t => Optional t
          | None =>
              (* allow_abbrev=False: only strings with a single leading
                 dash are searched for short flags *)
              let option_tuples :=
                if Str.startswith arg_string "--" then []
                else get_option_tuples arg_string in
              match option_tuples with
              | _ :: _ :: _ => Ambiguous
              | [t] => Optional t
              | [] =>
                  if Str.negative_number arg_string then Positional
                  else if Str.contains " "%char arg_string then Positional
                  else Optional (None, arg_string, None)
              end
          end
      end
  end.

(** The entries of [arg_strings_pattern]: ['A'], ['-'] and ['O']. *)
Inductive Token : Type :=
| TArg (arg_string : string)
| TSep
| TOpt (arg_string : string) (t : OptionTuple).

Inductive Result : Type :=
| Parsed (ns : Namespace) (extras : list string)
| Help                              (* print the help, [parser.exit()] *)
| UsageError (msg : string)         (* [parser.error(msg)]: status 2 *)
| Crash (e : Py.Exn).               (* an exception argparse does not catch *)

(** First loop of [_parse_known_args]: every string after the first
    [--] is a positional. *)
Fixpoint classify (after_sep : bool) (arg_strings : list string)
  : option (list Token) :=
  match arg_strings with
  | [] => Some []
  | s :: rest =>
      if after_sep then
        match classify true rest with
        | Some ts => Some (TArg s :: ts)
        | None => None
        end
      else if String.eqb s "--" then
        match classify true rest with
        | Some ts => Some (TSep :: ts)
        | None => None
        end
      else
        match parse_optional s with
        | Ambiguous => None
        | Positional =>
            match classify false rest with
            | Some ts => Some (TArg s :: ts)
            | None => None
            end
        | Optional t =>
            match classify false rest with
            | Some ts => Some (TOpt s t :: ts)
            | None => None
            end
        end
  end.

(** A short flag without argument followed by more text ([-hX]): the
    text is read as further short flags.  [-h] is the only short flag, so
    every character must be [h]; an empty text is subscripted out of
    range. *)
Fixpoint help_chain (explicit_arg : string) : Result :=
  match explicit_arg with
  | EmptyString => Crash Py.IndexError
  | String c rest =>
      match assoc option_string_actions (String "-"%char (String c EmptyString)) with
      | Some HelpAction =>
          match rest with
          | EmptyString => Help
          | _ => help_chain rest
          end
      | _ => UsageError "ignored explicit argument"
      end
  end.

(** Where [consume_optional] stands: scanning, after [--input_data_path]
    without explicit argument (the pattern [-*A-*] is being matched), or
    just after its value. *)
Inductive Mode : Type := Scan | WantValue | AfterValue.

(** Second loop of [_parse_known_args] ([consume_optional], with no
    positional action to consume): strings that are not used go to
    [extras]. *)
Fixpoint consume (mode : Mode) (tokens : list Token)
    (ns : Namespace) (extras : list string) : Result :=
  match tokens with
  | [] =>
      match mode with
      | WantValue => UsageError "expected one argument"
      | _ => Parsed ns extras
      end
  | TSep :: rest =>
      match mode with
      | Scan => consume Scan rest ns (extras ++ ["--"])
      | WantValue => consume WantValue rest ns extras
      | AfterValue => consume AfterValue rest ns extras
      end
  | TArg s :: rest =>
      match mode with
      | WantValue => consume AfterValue rest {| input_data_path := Some s |} extras
      | _ => consume Scan rest ns (extras ++ [s])
      end
  | TOpt arg_string (action, option_string, explicit_arg) :: rest =>
      match mode with
      | WantValue => UsageError "expected one argument"
      | _ =>
          match action, explicit_arg with
          | None, _ => consume Scan rest ns (extras ++ [arg_string])
          | Some StoreInputDataPath, Some v =>
              consume Scan rest {| input_data_path := Some v |} extras
          | Some StoreInputDataPath, None => consume WantValue rest ns extras
          | Some HelpAction, None => Help
          | Some HelpAction, Some e =>
              if Str.startswith option_string "--"
              then UsageError "ignored explicit argument"
              else help_chain e
          end
      end
  end.

(** [parser.parse_known_args(args)]. *)
Definition parse_known_args (args : list string) : Result :=
  match classify false args with
  | None => UsageError "ambiguous option"
  | Some tokens => consume Scan tokens {| input_data_path := None |} []
  end.

(** Strings that the parser does not know: plain words, and
    option-looking strings that name none of its options. *)
Definition unrecognized (arg_string : string) : bool :=
  match parse_optional arg_string with
  | Positional => true
  | Optional (None, _, _) => true
  | _ => false
  end.

(** Strings that can be the value of an option given as a separate word. *)
Definition positional (arg_string : string) : bool :=
  match parse_optional arg_string with
  | Positional => true
  | _ => false
  end.

(** Tokens that [consume] passes over (or moves to [extras]). *)
Definition ignorable (t : Token) : bool :=
  match t with
  | TArg _ | TSep => true
  | TOpt _ (None, _, _) => true
  | TOpt _ _ => false
  end.

(** The command line gives [path] as the value of [--input_data_path]. *)
Definition passes_input_data_path (args : list string) (path : string) : Prop :=
  exists extras,
    parse_known_args args = Parsed {| input_data_path := Some path |} extras.

End Argparse.

(* ===================================================================== *)
(** ** src/postprocess.py *)
(* ===================================================================== *)

Module Postprocess.

Import Py.
Local Open Scope py_scope.

(** What the script can see and touch: its command line ([sys.argv[1:]]),
    the files (path to text) and the two standard streams (the chunks
    written so far, oldest first). *)
Record World : Type := {
  argv : list string;
  files : gmap string string;
  stdout : list string;
  stderr : list string
}.

Definition write_stdout (s : string) : M World unit :=
  modify (fun w => {| argv := argv w; files := files w;
                      stdout := stdout w ++ [s]; stderr := stderr w |}).

Definition write_stderr (s : string) : M World unit :=
  modify (fun w => {| argv := argv w; files := files w;
                      stdout := stdout w; stderr := stderr w ++ [s] |}).

(** [parser.format_help()] and [parser.format_usage()]. *)
Definition format_usage : string :=
  "usage: postprocess.py [-h] [--input_data_path INPUT_DATA_PATH]".
Definition format_help : string :=
  format_usage ++ " parse user arguments".

(** [parser.parse_known_args()] on [sys.argv[1:]], with the printing and
    the [SystemExit] of [parser.exit] and [parser.error]. *)
Definition parse_known_args : M World (Argparse.Namespace * list string) :=
  w <- get;;
  match Argparse.parse_known_args (argv w) with
  | Argparse.Parsed args extras => ret (args, extras)
  | Argparse.Help => write_stdout format_help;;; raise (SystemExit 0)
  | Argparse.UsageError msg =>
      write_stderr format_usage;;;
      write_stderr ("postprocess.py: error: " ++ msg);;;
      raise (SystemExit 2)
  | Argparse.Crash e => raise e
  end.

(** [parse_args]: the unknown arguments are dropped. *)
Definition parse_args : M World Argparse.Namespace :=
  parsed <- parse_known_args;;
  let '(args, _) := parsed in
  ret args.

(** *** Lines of a text, as [pandas.read_json(..., lines=True)] counts them *)

Fixpoint split (c : ascii) (s : string) : list string :=
  match s with
  | EmptyString => [EmptyString]
  | String d s' =>
      if Ascii.eqb c d then EmptyString :: split c s'
      else match split c s' with
           | h :: t => String d h :: t
           | [] => [String d EmptyString]
           end
  end.

(** [c.isspace()] on the ASCII range: space, tab to carriage return, and
    the four separators 28 to 31. *)
Definition is_space (c : ascii) : bool :=
  let n := nat_of_ascii c in
  ((n =? 32)%nat || ((9 <=? n)%nat && (n <=? 13)%nat)
   || ((28 <=? n)%nat && (n <=? 31)%nat))%bool.

Fixpoint blank (s : string) : bool :=
  match s with
  | EmptyString => true
  | String c s' => (is_space c && blank s')%bool
  end.

(** The JSON lines of a text: its lines (split at the newline character)
    that are not blank. *)
Definition json_lines (content : string) : list string :=
  List.filter (fun l => negb (blank l)) (split "010"%char content).

Section WithPandas.

(** pandas is not part of the repository: the table type, the loader
    [pd.read_json(path_or_buf, lines=True)] (which reads files and
    writes none) and the text that [print] shows for a table are
    parameters. *)
Variable DataFrame : Type.
Variable read_json : gmap string string -> option string -> Outcome DataFrame.
Variable to_string : DataFrame -> string.
Variable nrows : DataFrame -> nat.
(** The JSON grammar, for one line. *)
Variable valid_json : string -> bool.

(** [main]. *)
Definition main : M World unit :=
  args <- parse_args;;
  let input_data_path := Argparse.input_data_path args in
  w <- get;;
  input_data_df <- lift (read_json (files w) input_data_path);;
  write_stdout (to_string input_data_df);;;
  ret tt.

(** [python postprocess.py ...]: the module calls [main()] under the
    [__main__] guard; an uncaught exception other than [SystemExit] is
    reported as a traceback on the error stream.  The result is the exit
    status of the process. *)
Definition script (w : World) : Z * World :=
  match main w with
  | (Raise (SystemExit c), w') => (c, w')
  | (Raise e, w') =>
      (exit_status (@Raise unit e),
       {| argv := argv w'; files := files w'; stdout := stdout w';
          stderr := stderr w' ++ ["Traceback (most recent call last):"] |})
  | (Ret _, w') => (0, w')
  end.

(** *** What the script relies on from the loader *)



(** [None] in place of a path makes the loader raise. *)
Definition raises_on_None : Prop :=
  forall fs : gmap string string, exists e, read_json fs None = Raise e.

End WithPandas.

(** *** A reference loader

    The simplest loader that meets the three expectations above: a table
    is the list of its rows, a row is the text of its line. *)
Definition ref_valid_json (l : string) : bool :=
  (Str.startswith l "{" && Str.contains "}"%char l)%bool.

Definition ref_read_json (fs : gmap string string) (path : option string)
  : Outcome (list string) :=
  match path with
  | None => Raise (LibError "ValueError")
  | Some p =>
      match fs !! p with
      | None => Raise (LibError "FileNotFoundError")
      | Some content =>
          if forallb ref_valid_json (json_lines content)
          then Ret (json_lines content)
          else Raise (LibError "ValueError")
      end
  end.

Definition ref_to_string (df : list string) : string :=
  String.concat (String "010"%char EmptyString) df.

(** *** An example run

    The evaluation output holds two records; the stage is started as the
    component descriptor would, with the flag and the path. *)
Definition newline : string := String "010"%char EmptyString.

Definition example_files : gmap string string :=
  {[ "pf_output.jsonl" := ("{}" ++ newline ++ "{}" ++ newline)%string ]}.

Definition example_world : World :=
  {| argv := ["--input_data_path"; "pf_output.jsonl"];
     files := example_files; stdout := []; stderr := [] |}.


(** A command line without the flag. *)
Definition example_world_no_flag : World :=
  {| argv := ["--verbose"; "run-7"];
     files := example_files; stdout := []; stderr := [] |}.

End Postprocess.

(* ===================================================================== *)
(** ** run_pipeline.py *)
(* ===================================================================== *)

Module RunPipeline.

Import Py.
Local Open Scope py_scope.

Definition AML_EXPERIMENT_NAME : string := "pf_in_pipeline_experiment".
Definition AML_PIPELINE_NAME : string := "my_pipeline".
Definition AML_DATASTORE_PATH_PREFIX : string :=
  "azureml://datastores/workspaceblobstore/paths/".
Definition AML_DATASTORE_PREPROCESS_FILE_NAME : string := "data.jsonl".
Definition AML_DATASTORE_PROMPTFLOW_FILE_NAME : string := "pf_output.jsonl".
Definition AML_DATASTORE_POSTPROCESS_FILE_NAME : string := "postprocess.jsonl".

(** *** The Azure ML SDK objects the script builds *)

(** [azure.ai.ml.constants.AssetTypes]. *)
Inductive AssetTypes : Type := URI_FILE | URI_FOLDER | MLTABLE.

(** [azure.ai.ml.Input(path=..., type=...)]. *)
Record Input : Type := { in_path : string; in_type : AssetTypes }.

(** [azure.ai.ml.Output(path=..., type=..., mode=...)]. *)
Record Output : Type :=
  { out_path : string; out_type : AssetTypes; out_mode : string }.

(** What a keyword argument of a component call can be in this script: an
    [Input], a number, a string, or the output port of an earlier node
    ([node.outputs.port]), which is a reference to that node and not a
    copy of its value. *)
Inductive Arg : Type :=
| ArgInput (i : Input)
| ArgInt (n : Z)
| ArgStr (s : string)
| ArgNodeOutput (node port : string).

Section WithComponents.

(** A component is opaque: the script loads it and calls it, and never
    looks inside. *)
Context {Component : Type}.

(** A node of the pipeline graph: the result of calling a component
    inside the pipeline function.  The DSL names the node after the
    variable it is assigned to. *)
Record Node : Type := {
  node_name : string;
  node_component : Component;
  node_inputs : list (string * Arg);
  node_outputs : list (string * Output)
}.

(** [variable = component(key=value, ...)]. *)
Definition call (variable : string) (c : Component)
    (kwargs : list (string * Arg)) : Node :=
  {| node_name := variable; node_component := c;
     node_inputs := kwargs; node_outputs := [] |}.

(** [node.outputs.port = output]. *)
Definition set_output (nd : Node) (port : string) (o : Output) : Node :=
  {| node_name := node_name nd; node_component := node_component nd;
     node_inputs := node_inputs nd;
     node_outputs :=
       List.filter (fun kv => negb (String.eqb (fst kv) port)) (node_outputs nd)
       ++ [(port, o)] |}.

(** [node.inputs[key]] and [node.outputs[port]], as the job shows them. *)
Fixpoint lookup_kw {V : Type} (kvs : list (string * V)) (key : string)
  : option V :=
  match kvs with
  | [] => None
  | (k, v) :: kvs' => if String.eqb key k then Some v else lookup_kw kvs' key
  end.

Definition input_of (nd : Node) (key : string) : option Arg :=
  lookup_kw (node_inputs nd) key.

Definition output_at (nd : Node) (port : string) : option Output :=
  lookup_kw (node_outputs nd) port.

(** [node.outputs.port], used as an argument. *)
Definition output_of (nd : Node) (port : string) : Arg :=
  ArgNodeOutput (node_name nd) port.

(** [PipelineJob]: the nodes in the order the pipeline function created
    them, the display name given to the decorator, the pipeline inputs
    and [settings.default_compute]. *)
Record PipelineJob : Type := {
  job_display_name : string;
  job_inputs : list (string * string);
  jobs : list Node;
  default_compute : option string
}.

(** [MLClient]. *)
Record MLClient : Type := {
  subscription_id : option string;
  resource_group_name : option string;
  workspace_name : option string
}.

(** The state of the process and of the services it talks to:
    - [pipeline_components], the module-level list;
    - [descriptors], the component descriptors that can be loaded at
      this moment, by path;
    - [loaded], the paths given to [load_component] so far;
    - [environ] and [dotenv], the process environment and the [.env]
      file;
    - [submitted], the jobs given to [jobs.create_or_update] with their
      experiment name, and [streamed], the job names given to
      [jobs.stream]. *)
Record World : Type := {
  pipeline_components : list Component;
  descriptors : gmap string Component;
  loaded : list string;
  environ : gmap string string;
  dotenv : gmap string string;
  submitted : list (PipelineJob * string);
  streamed : list string
}.

(** [pipeline_components = []] when the module is loaded. *)
Definition initial (w : World) : World :=
  {| pipeline_components := []; descriptors := descriptors w;
     loaded := loaded w; environ := environ w; dotenv := dotenv w;
     submitted := submitted w; streamed := streamed w |}.

(** [load_component(path)]: reads the descriptor; raises when there is
    none to load at this path. *)
Definition load_component (path : string) : M World Component :=
  modify (fun w =>
    {| pipeline_components := pipeline_components w;
       descriptors := descriptors w; loaded := loaded w ++ [path];
       environ := environ w; dotenv := dotenv w;
       submitted := submitted w; streamed := streamed w |});;;
  w <- get;;
  match descriptors w !! path with
  | Some c => ret c
  | None => raise (LibError "load_component")
  end.

(** [pipeline_components.append(c)]. *)
Definition append (c : Component) : M World unit :=
  modify (fun w =>
    {| pipeline_components := pipeline_components w ++ [c];
       descriptors := descriptors w; loaded := loaded w;
       environ := environ w; dotenv := dotenv w;
       submitted := submitted w; streamed := streamed w |}).

(** The body of [evaluation_pipeline].  [pipeline_components] is a
    global name: it is looked up when the body runs.  The body returns
    nothing; the value here is the list of the nodes it creates, in the
    order of creation, which is what the DSL collects. *)
Definition evaluation_pipeline (name : string) : M World (list Node) :=
  let pf_input_path :=
    {| in_path := AML_DATASTORE_PATH_PREFIX ++ AML_DATASTORE_PREPROCESS_FILE_NAME;
       in_type := URI_FILE |} in
  let preprocess_output_path :=
    {| out_path := AML_DATASTORE_PATH_PREFIX ++ "preprocess_output.jsonl";
       out_type := URI_FILE; out_mode := "direct" |} in
  w <- get;;
  c0 <- subscript (pipeline_components w) 0;;
  let preprocess :=
    call "preprocess" c0
      [("input_data_path", ArgInput pf_input_path); ("max_records", ArgInt 2)] in
  let preprocess := set_output preprocess "output_data_path" preprocess_output_path in
  let pf_output :=
    {| out_path := AML_DATASTORE_PATH_PREFIX ++ AML_DATASTORE_PROMPTFLOW_FILE_NAME;
       out_type := URI_FILE; out_mode := "direct" |} in
  w <- get;;
  c1 <- subscript (pipeline_components w) 1;;
  let experiment :=
    call "experiment" c1
      [("data", output_of preprocess "output_data_path");
       ("url", ArgStr "${data.url}")] in
  let experiment := set_output experiment "flow_outputs" pf_output in
  w <- get;;
  c2 <- subscript (pipeline_components w) 2;;
  let postprocess :=
    call "postprocess" c2
      [("input_data_path", output_of experiment "flow_outputs")] in
  ret [preprocess; experiment; postprocess].

(** The object the [@pipeline(name=...)] decorator returns: calling it
    with [name] runs the function body and wraps the nodes in a
    [PipelineJob]. *)
Definition PipelineDefinition : Type := string -> M World PipelineJob.

Definition pipeline (display_name : string)
    (func : string -> M World (list Node)) : PipelineDefinition :=
  fun name =>
    nodes <- func name;;
    ret {| job_display_name := display_name;
           job_inputs := [("name", name)];
           jobs := nodes;
           default_compute := None |}.

(** [create_dynamic_evaluation_pipeline]. *)
Definition create_dynamic_evaluation_pipeline (pipeline_name : string)
  : PipelineDefinition :=
  pipeline pipeline_name evaluation_pipeline.

(** [build_pipeline]. *)
Definition build_pipeline (pipeline_name : string) : M World PipelineDefinition :=
  preprocess_component <- load_component "components/preprocess.yaml";;
  evaluation_promptflow_component <-
    load_component "../flows/experiment/flow.dag.yaml";;
  postprocess_component <- load_component "components/postprocess.yaml";;
  append preprocess_component;;;
  append evaluation_promptflow_component;;;
  append postprocess_component;;;
  let pipeline_definition := create_dynamic_evaluation_pipeline pipeline_name in
  ret pipeline_definition.

(** [os.getenv]. *)
Definition getenv (key : string) : M World (option string) :=
  w <- get;; ret (environ w !! key).

(** [load_dotenv()]: variables of the [.env] file that the environment
    does not define yet are added to it. *)
Definition load_dotenv : M World unit :=
  modify (fun w =>
    {| pipeline_components := pipeline_components w;
       descriptors := descriptors w; loaded := loaded w;
       environ := environ w ∪ dotenv w; dotenv := dotenv w;
       submitted := submitted w; streamed := streamed w |}).

(** [get_ml_client]. *)
Definition get_ml_client : M World MLClient :=
  subscription_id <- getenv "SUBSCRIPTION_ID";;
  resource_group_name <- getenv "RESOURCE_GROUP_NAME";;
  workspace_name <- getenv "AML_WORKSPACE_NAME";;
  ret {| subscription_id := subscription_id;
         resource_group_name := resource_group_name;
         workspace_name := workspace_name |}.

(** The name the job service gives to a submitted job. *)
Variable service_job_name : PipelineJob -> string.

(** [ml_client.jobs.create_or_update(job, experiment_name=...)]; the
    value is the name of the job the service returns. *)
Definition create_or_update (ml_client : MLClient) (job : PipelineJob)
    (experiment_name : string) : M World string :=
  modify (fun w =>
    {| pipeline_components := pipeline_components w;
       descriptors := descriptors w; loaded := loaded w;
       environ := environ w; dotenv := dotenv w;
       submitted := submitted w ++ [(job, experiment_name)];
       streamed := streamed w |});;;
  ret (service_job_name job).

(** [ml_client.jobs.stream(name=...)]. *)
Definition stream (ml_client : MLClient) (name : string) : M World unit :=
  modify (fun w =>
    {| pipeline_components := pipeline_components w;
       descriptors := descriptors w; loaded := loaded w;
       environ := environ w; dotenv := dotenv w;
       submitted := submitted w; streamed := streamed w ++ [name] |}).

(** The [__main__] block. *)
Definition main : M World unit :=
  load_dotenv;;;
  compute_target <- getenv "AML_COMPUTE_TARGET";;
  let pipeline_name := AML_PIPELINE_NAME in
  pipeline_definition <- build_pipeline pipeline_name;;
  ml_client <- get_ml_client;;
  pipeline_job <- pipeline_definition pipeline_name;;
  let pipeline_job :=
    {| job_display_name := job_display_name pipeline_job;
       job_inputs := job_inputs pipeline_job;
       jobs := jobs pipeline_job;
       default_compute := compute_target |} in
  job_name <- create_or_update ml_client pipeline_job AML_EXPERIMENT_NAME;;
  stream ml_client job_name.

(** *** What one run leaves behind *)

(** The world that a successful call of [build_pipeline] leaves. *)
Definition after_build (w : World) (p e q : Component) : World :=
  {| pipeline_components := pipeline_components w ++ [p; e; q];
     descriptors := descriptors w;
     loaded := loaded w ++ ["components/preprocess.yaml";
                            "../flows/experiment/flow.dag.yaml";
                            "components/postprocess.yaml"];
     environ := environ w; dotenv := dotenv w;
     submitted := submitted w; streamed := streamed w |}.

(** The nodes that [evaluation_pipeline] creates from three
    components. *)
Definition preprocess_node (p : Component) : Node :=
  {| node_name := "preprocess"; node_component := p;
     node_inputs :=
       [("input_data_path",
         ArgInput {| in_path := "azureml://datastores/workspaceblobstore/paths/data.jsonl";
                     in_type := URI_FILE |});
        ("max_records", ArgInt 2)];
     node_outputs :=
       [("output_data_path",
         {| out_path := "azureml://datastores/workspaceblobstore/paths/preprocess_output.jsonl";
            out_type := URI_FILE; out_mode := "direct" |})] |}.

Definition experiment_node (e : Component) : Node :=
  {| node_name := "experiment"; node_component := e;
     node_inputs :=
       [("data", ArgNodeOutput "preprocess" "output_data_path");
        ("url", ArgStr "${data.url}")];
     node_outputs :=
       [("flow_outputs",
         {| out_path := "azureml://datastores/workspaceblobstore/paths/pf_output.jsonl";
            out_type := URI_FILE; out_mode := "direct" |})] |}.

Definition postprocess_node (q : Component) : Node :=
  {| node_name := "postprocess"; node_component := q;
     node_inputs := [("input_data_path", ArgNodeOutput "experiment" "flow_outputs")];
     node_outputs := [] |}.

(** *** Calling [build_pipeline] more than once

    The module never does; a caller that imports it can.  Between two
    calls the descriptors on disk may have been edited: [disks] gives
    the descriptors that each call finds.  The value is the list of the
    pipeline definitions returned, first call first. *)
Definition set_descriptors (d : gmap string Component) : M World unit :=
  modify (fun w =>
    {| pipeline_components := pipeline_components w;
       descriptors := d; loaded := loaded w;
       environ := environ w; dotenv := dotenv w;
       submitted := submitted w; streamed := streamed w |}).

Fixpoint build_repeatedly (disks : list (gmap string Component))
    (pipeline_name : string) : M World (list PipelineDefinition) :=
  match disks with
  | [] => ret []
  | d :: disks' =>
      set_descriptors d;;;
      pd <- build_pipeline pipeline_name;;
      pds <- build_repeatedly disks' pipeline_name;;
      ret (pd :: pds)
  end.

(** The three components that one call of [build_pipeline] appends,
    when the three descriptors are there. *)
Definition components_on (d : gmap string Component) : option (list Component) :=
  match d !! "components/preprocess.yaml",
        d !! "../flows/experiment/flow.dag.yaml",
        d !! "components/postprocess.yaml" with
  | Some p, Some e, Some q => Some [p; e; q]
  | _, _, _ => None
  end.

End WithComponents.

Arguments Node : clear implicits.
Arguments PipelineJob : clear implicits.
Arguments World : clear implicits.
Arguments PipelineDefinition : clear implicits.

(** *** The claim of the specification on the data paths

    "data.jsonl as the preprocess stage's input, pf_output.jsonl as the
    evaluation stage's output, and postprocess.jsonl as the postprocess
    stage's output location", each under the datastore prefix. *)
Section DataPaths.
Context {Component : Type}.

Definition reads_from (nd : Node Component) (file_name : string) : Prop :=
  exists key i, input_of nd key = Some (ArgInput i) /\
                in_path i = (AML_DATASTORE_PATH_PREFIX ++ file_name)%string.

Definition writes_to (nd : Node Component) (file_name : string) : Prop :=
  exists port o, output_at nd port = Some o /\
                 out_path o = (AML_DATASTORE_PATH_PREFIX ++ file_name)%string.

Definition preprocess_reads_data (job : PipelineJob Component) : Prop :=
  exists nd, jobs job !! 0%nat = Some nd /\ reads_from nd "data.jsonl".

Definition evaluation_writes_pf_output (job : PipelineJob Component) : Prop :=
  exists nd, jobs job !! 1%nat = Some nd /\ writes_to nd "pf_output.jsonl".

Definition postprocess_writes_postprocess (job : PipelineJob Component) : Prop :=
  exists nd, jobs job !! 2%nat = Some nd /\ writes_to nd "postprocess.jsonl".

Definition exchanges_at_fixed_paths (job : PipelineJob Component) : Prop :=
  preprocess_reads_data job /\ evaluation_writes_pf_output job /\
  postprocess_writes_postprocess job.

End DataPaths.

(** *** An example workspace

    Components are stood for by their names; the three descriptors are on
    disk and the module has just been loaded. *)
Definition example_descriptors : gmap string string :=
  <["components/preprocess.yaml" := "preprocess"]>
  (<["../flows/experiment/flow.dag.yaml" := "web_classification_flow"]>
  (<["components/postprocess.yaml" := "postprocess"]> ∅)).

Definition example_world : World string :=
  {| pipeline_components := []; descriptors := example_descriptors;
     loaded := []; environ := ∅; dotenv := ∅;
     submitted := []; streamed := [] |}.

(** The descriptors after an edit of the three files. *)
Definition edited_descriptors : gmap string string :=
  <["components/preprocess.yaml" := "preprocess_v2"]>
  (<["../flows/experiment/flow.dag.yaml" := "web_classification_flow_v2"]>
  (<["components/postprocess.yaml" := "postprocess_v2"]> ∅)).

End RunPipeline.

(* ===================================================================== *)
(** ** The stages at run time *)
(* ===================================================================== *)

(** What reaches the evaluation stage when the platform runs a pipeline
    job.  Only the preprocess stage is followed: the platform reads the
    records at the stage's [input_data_path], runs the component with the
    stage's [max_records], and hands the result to every input that is bound
    to the stage's [output_data_path]. *)
Module Platform.

Import RunPipeline.

Section Execution.

Context {Component : Type}.

(** One record of a line-delimited JSON file. *)
Variable Row : Type.

(** Modelled from the spec: the preprocess component
    ([components/preprocess.yaml] and the script it runs) is not among
    the sources.  [run_preprocess max_records rows] stands for the
    records it writes on [output_data_path] when it is given
    [max_records] and an input file holding [rows].  The specification
    says of it that with [max_records=2] at most two records are
    forwarded whatever the size of the input: the component never
    forwards more than [max_records] records. *)
Variable run_preprocess : Z -> list Row -> list Row.

(** Modelled from the spec: the contract of the preprocess component, which
    is not among the sources: it forwards at most [max_records] records,
    whatever the size of its input. *)
Definition honours_max_records : Prop :=
  forall (n : Z) (rows : list Row),
    0 <= n -> (length (run_preprocess n rows) <= Z.to_nat n)%nat.

Definition find_node (job : PipelineJob Component) (name : string)
  : option (Node Component) :=
  List.find (fun nd => String.eqb (node_name nd) name) (jobs job).

(** The records that the preprocess node [nd] writes, given the
    contents of the datastore (records by path). *)
Definition preprocess_output (datastore : gmap string (list Row))
    (nd : Node Component) : option (list Row) :=
  match input_of nd "input_data_path", input_of nd "max_records" with
  | Some (ArgInput i), Some (ArgInt n) =>
      match datastore !! in_path i with
      | Some rows => Some (run_preprocess n rows)
      | None => None
      end
  | _, _ => None
  end.

(** The records that arrive on the [data] input of the evaluation
    stage. *)
Definition forwarded_to_evaluation (datastore : gmap string (list Row))
    (job : PipelineJob Component) : option (list Row) :=
  match find_node job "experiment" with
  | None => None
  | Some experiment =>
      match input_of experiment "data" with
      | Some (ArgNodeOutput source port) =>
          if String.eqb port "output_data_path" then
            match find_node job source with
            | Some nd => preprocess_output datastore nd
            | None => None
            end
          else None
      | _ => None
      end
  end.

End Execution.

(** A preprocess component that keeps the first [max_records] records. *)
Definition head_records {Row : Type} (max_records : Z) (rows : list Row)
  : list Row :=
  firstn (Z.to_nat max_records) rows.

End Platform.

(* ===================================================================== *)
(** ** The pipeline graph and the loads of the builder *)
(* ===================================================================== *)

Module Graph.

Import RunPipeline.

(** The paths that [build_pipeline] gives to [load_component], in the order
    of the calls. *)
Definition component_paths : list string :=
  [ "components/preprocess.yaml"; "../flows/experiment/flow.dag.yaml";
    "components/postprocess.yaml" ].

Section Wiring.

Context {Component : Type}.

(** The world in which [load_component] has been called on the first [n]
    paths of [build_pipeline] and nothing else has changed. *)
Definition after_loads (w : World Component) (n : nat) : World Component :=
  {| pipeline_components := pipeline_components w;
     descriptors := descriptors w;
     loaded := loaded w ++ take n component_paths;
     environ := environ w; dotenv := dotenv w;
     submitted := submitted w; streamed := streamed w |}.

(** The output ports of other nodes that the inputs of a node refer to, as
    pairs of a node name and a port. *)
Definition references (nd : Node Component) : list (string * string) :=
  flat_map (fun kv => match kv.2 with
                      | ArgNodeOutput node port => [(node, port)]
                      | _ => []
                      end)
           (node_inputs nd).

(** One of the nodes [earlier] has this name and has this output port
    set. *)
Definition declared_by (earlier : list (Node Component))
    (ref : string * string) : bool :=
  existsb (fun nd => String.eqb (node_name nd) ref.1
                     && match output_at nd ref.2 with
                        | Some _ => true
                        | None => false
                        end)
          earlier.

(** Every node has a name of its own and refers only to output ports that
    nodes created before it have set: the nodes can run in the order of
    their creation. *)
Fixpoint well_wired_after (earlier nodes : list (Node Component)) : bool :=
  match nodes with
  | [] => true
  | nd :: rest =>
      forallb (declared_by earlier) (references nd)
      && negb (existsb (fun nd' => String.eqb (node_name nd') (node_name nd)) earlier)
      && well_wired_after (earlier ++ [nd]) rest
  end.

Definition well_wired (nodes : list (Node Component)) : bool :=
  well_wired_after [] nodes.

(** The names of the nodes that each node refers to, node by node. *)
Definition dependencies (nodes : list (Node Component)) : list (list string) :=
  (fun nd => fst <$> references nd) <$> nodes.

End Wiring.

End Graph.

(* ===================================================================== *)
(** * Properties of run_pipeline.py *)
(* ===================================================================== *)

Module RunPipelineSpec.

Import Py RunPipeline.

(** Unfolds the monad so that a run of the script computes. *)
Ltac py_unfold :=
  unfold build_pipeline, create_dynamic_evaluation_pipeline, pipeline,
    evaluation_pipeline, load_component, append, set_descriptors,
    getenv, load_dotenv, get_ml_client, create_or_update, stream,
    subscript, bind, ret, raise, get, modify, lift in *.

Section Builder.

Context {Component : Type}.
Implicit Types (w : World Component) (p e q : Component).

Lemma build_pipeline_run name w p e q :
  descriptors w !! "components/preprocess.yaml" = Some p ->
  descriptors w !! "../flows/experiment/flow.dag.yaml" = Some e ->
  descriptors w !! "components/postprocess.yaml" = Some q ->
  build_pipeline name w
  = (Ret (create_dynamic_evaluation_pipeline name), after_build w p e q).
Proof.
  intros Hp He Hq. py_unfold. simpl.
  rewrite Hp. simpl. rewrite He. simpl. rewrite Hq. simpl.
  unfold after_build. rewrite <- !app_assoc. reflexivity.
Qed.

Lemma evaluation_pipeline_run name w p e q rest :
  pipeline_components w = p :: e :: q :: rest ->
  evaluation_pipeline name w
  = (Ret [preprocess_node p; experiment_node e; postprocess_node q], w).
Proof.
  intros Hpc. py_unfold. simpl. repeat (rewrite Hpc; simpl). reflexivity.
Qed.

Lemma definition_run pipeline_name name w p e q rest :
  pipeline_components w = p :: e :: q :: rest ->
  create_dynamic_evaluation_pipeline pipeline_name name w
  = (Ret {| job_display_name := pipeline_name;
            job_inputs := [("name", name)];
            jobs := [preprocess_node p; experiment_node e; postprocess_node q];
            default_compute := None |}, w).
Proof.
  intros Hpc. unfold create_dynamic_evaluation_pipeline, pipeline, bind.
  rewrite (evaluation_pipeline_run name w p e q rest Hpc). reflexivity.
Qed.

(** Without three components in the module-level list the definition
    cannot be called: the subscript raises. *)
Lemma definition_run_short pipeline_name name w :
  (length (pipeline_components w) < 3)%nat ->
  create_dynamic_evaluation_pipeline pipeline_name name w = (Raise IndexError, w).
Proof.
  py_unfold.
  destruct (pipeline_components w) as [|a [|b [|c l]]] eqn:Hpc; simpl;
    intros Hlen; repeat (rewrite ?Hpc; simpl); try reflexivity.
  exfalso. lia.
Qed.

Lemma first_three (l : list Component) :
  (3 <= length l)%nat -> exists a b c rest, l = a :: b :: c :: rest.
Proof.
  destruct l as [|a [|b [|c rest]]]; simpl; intros Hlen; try lia.
  by exists a, b, c, rest.
Qed.

Lemma components_on_Some (d : gmap string Component) cs :
  components_on d = Some cs ->
  exists p e q,
    d !! "components/preprocess.yaml" = Some p /\
    d !! "../flows/experiment/flow.dag.yaml" = Some e /\
    d !! "components/postprocess.yaml" = Some q /\ cs = [p; e; q].
Proof.
  unfold components_on.
  destruct (d !! "components/preprocess.yaml") as [p|]; [|discriminate].
  destruct (d !! "../flows/experiment/flow.dag.yaml") as [e|]; [|discriminate].
  destruct (d !! "components/postprocess.yaml") as [q|]; [|discriminate].
  intros [= <-]. by exists p, e, q.
Qed.

(** [build_pipeline] never touches the job service, whether the
    descriptors load or not. *)
Lemma build_pipeline_frame name w :
  submitted (build_pipeline name w).2 = submitted w /\
  streamed (build_pipeline name w).2 = streamed w.
Proof.
  py_unfold. simpl.
  destruct (descriptors w !! "components/preprocess.yaml"); simpl; [|done].
  destruct (descriptors w !! "../flows/experiment/flow.dag.yaml"); simpl; [|done].
  destruct (descriptors w !! "components/postprocess.yaml"); simpl; done.
Qed.

(** C1. Called in a freshly loaded module with the three descriptors on
    disk, the pipeline builder returns a definition whose job references
    exactly three stages: the preprocess component, the prompt-flow
    evaluation component and the postprocess component, in this order. *)
Theorem build_pipeline_three_stages pipeline_name name w p e q :
  pipeline_components w = [] ->
  descriptors w !! "components/preprocess.yaml" = Some p ->
  descriptors w !! "../flows/experiment/flow.dag.yaml" = Some e ->
  descriptors w !! "components/postprocess.yaml" = Some q ->
  exists pipeline_definition w' job,
    build_pipeline pipeline_name w = (Ret pipeline_definition, w') /\
    pipeline_definition name w' = (Ret job, w') /\
    length (jobs job) = 3%nat /\
    node_component <$> jobs job = [p; e; q] /\
    node_name <$> jobs job = ["preprocess"; "experiment"; "postprocess"].
Proof.
  intros Hnil Hp He Hq.
  eexists _, _, _. split; [by apply build_pipeline_run|].
  split.
  - apply definition_run with (rest := []). simpl. by rewrite Hnil.
  - done.
Qed.

(** C2. In the job of the definition that [build_pipeline] returns, the
    stages are wired by position: the [data] input of the evaluation stage
    is the [output_data_path] output of the preprocess stage, and the
    [input_data_path] input of the postprocess stage is the [flow_outputs]
    output of the evaluation stage. *)
Theorem build_pipeline_wiring pipeline_name name w p e q :
  descriptors w !! "components/preprocess.yaml" = Some p ->
  descriptors w !! "../flows/experiment/flow.dag.yaml" = Some e ->
  descriptors w !! "components/postprocess.yaml" = Some q ->
  exists pipeline_definition w' job preprocess experiment postprocess,
    build_pipeline pipeline_name w = (Ret pipeline_definition, w') /\
    pipeline_definition name w' = (Ret job, w') /\
    jobs job = [preprocess; experiment; postprocess] /\
    is_Some (output_at preprocess "output_data_path") /\
    input_of experiment "data" = Some (output_of preprocess "output_data_path") /\
    is_Some (output_at experiment "flow_outputs") /\
    input_of postprocess "input_data_path"
    = Some (output_of experiment "flow_outputs").
Proof.
  intros Hp He Hq.
  destruct (first_three (pipeline_components (after_build w p e q)))
    as (a & b & c & rest & Hpc).
  { simpl. rewrite length_app. simpl. lia. }
  eexists _, _, _, (preprocess_node a), (experiment_node b), (postprocess_node c).
  split; [by apply build_pipeline_run|].
  split; [by apply definition_run with (rest := rest)|].
  repeat split; by eexists.
Qed.

(** C3, as the code has it. The job of the definition that
    [build_pipeline] returns reads [data.jsonl] as the input of the
    preprocess stage and writes [pf_output.jsonl] as the output of the
    evaluation stage, both under the workspaceblobstore path prefix. *)
Theorem build_pipeline_data_paths pipeline_name name w p e q :
  descriptors w !! "components/preprocess.yaml" = Some p ->
  descriptors w !! "../flows/experiment/flow.dag.yaml" = Some e ->
  descriptors w !! "components/postprocess.yaml" = Some q ->
  AML_DATASTORE_PATH_PREFIX = "azureml://datastores/workspaceblobstore/paths/" /\
  exists pipeline_definition w' job,
    build_pipeline pipeline_name w = (Ret pipeline_definition, w') /\
    pipeline_definition name w' = (Ret job, w') /\
    preprocess_reads_data job /\ evaluation_writes_pf_output job.
Proof.
  intros Hp He Hq. split; [done|].
  destruct (first_three (pipeline_components (after_build w p e q)))
    as (a & b & c & rest & Hpc).
  { simpl. rewrite length_app. simpl. lia. }
  eexists _, _, _.
  split; [by apply build_pipeline_run|].
  split; [by apply definition_run with (rest := rest)|].
  split.
  - exists (preprocess_node a). split; [done|].
    by eexists "input_data_path", _.
  - exists (experiment_node b). split; [done|].
    by eexists "flow_outputs", _.
Qed.

(** C7. For every pipeline name, [build_pipeline] gives exactly three
    paths to [load_component], the fixed ones, and returns a definition
    that can be called with a name; it submits no job and streams none,
    and neither does calling the definition. *)
Theorem build_pipeline_loads_three pipeline_name w p e q :
  descriptors w !! "components/preprocess.yaml" = Some p ->
  descriptors w !! "../flows/experiment/flow.dag.yaml" = Some e ->
  descriptors w !! "components/postprocess.yaml" = Some q ->
  exists pipeline_definition w',
    build_pipeline pipeline_name w = (Ret pipeline_definition, w') /\
    loaded w' = loaded w ++ ["components/preprocess.yaml";
                             "../flows/experiment/flow.dag.yaml";
                             "components/postprocess.yaml"] /\
    submitted w' = submitted w /\ streamed w' = streamed w /\
    forall name, exists job,
      pipeline_definition name w' = (Ret job, w') /\
      job_display_name job = pipeline_name /\
      job_inputs job = [("name", name)].
Proof.
  intros Hp He Hq.
  destruct (first_three (pipeline_components (after_build w p e q)))
    as (a & b & c & rest & Hpc).
  { simpl. rewrite length_app. simpl. lia. }
  eexists _, _. split; [by apply build_pipeline_run|].
  repeat split.
  intros name. eexists. split; [by apply definition_run with (rest := rest)|].
  done.
Qed.

Lemma build_repeatedly_run disks css :
  Forall2 (fun d cs => components_on d = Some cs) disks css ->
  forall name w, exists w',
    build_repeatedly disks name w
    = (Ret (replicate (length disks) (create_dynamic_evaluation_pipeline name)), w') /\
    pipeline_components w' = pipeline_components w ++ concat css /\
    submitted w' = submitted w.
Proof.
  induction 1 as [|d cs disks css Hd _ IH]; intros name w.
  - exists w. simpl. by rewrite app_nil_r.
  - apply components_on_Some in Hd as (p & e & q & Hp & He & Hq & ->).
    set (wd := {| pipeline_components := pipeline_components w;
                  descriptors := d; loaded := loaded w;
                  environ := environ w; dotenv := dotenv w;
                  submitted := submitted w; streamed := streamed w |}).
    destruct (IH name (after_build wd p e q)) as (w' & Hrun & Hpc & Hsub).
    exists w'. split; [|split].
    + cbn [build_repeatedly]. unfold bind at 1. unfold set_descriptors, modify.
      fold wd. unfold bind at 1.
      rewrite (build_pipeline_run name wd p e q Hp He Hq).
      unfold bind at 1. rewrite Hrun. reflexivity.
    + rewrite Hpc. simpl. by rewrite <- app_assoc.
    + rewrite Hsub. reflexivity.
Qed.

(** C9. [build_pipeline] is not idempotent. Each call appends three
    components to the module-level list: after [n] calls in a freshly
    loaded module the list has [3 * n] entries. The definitions returned
    read the entries 0, 1 and 2: whichever call returned it, a definition
    builds its job from the components that the first call loaded, also
    when the descriptors have changed since. *)
Theorem build_pipeline_not_idempotent disks css pipeline_name w :
  pipeline_components w = [] ->
  Forall2 (fun d cs => components_on d = Some cs) disks css ->
  exists pipeline_definitions w',
    build_repeatedly disks pipeline_name w = (Ret pipeline_definitions, w') /\
    length pipeline_definitions = length disks /\
    length (pipeline_components w') = (3 * length disks)%nat /\
    forall first_call, head css = Some first_call ->
      forall pipeline_definition, pipeline_definition ∈ pipeline_definitions ->
        forall name, exists job,
          pipeline_definition name w' = (Ret job, w') /\
          node_component <$> jobs job = first_call.
Proof.
  intros Hnil Hdisks.
  destruct (build_repeatedly_run disks css Hdisks pipeline_name w)
    as (w' & Hrun & Hpc & _).
  rewrite Hnil in Hpc. simpl in Hpc.
  eexists _, w'. split; [exact Hrun|].
  split; [by rewrite length_replicate|].
  split.
  - rewrite Hpc. clear -Hdisks.
    induction Hdisks as [|d cs disks css Hd _ IH]; [done|].
    apply components_on_Some in Hd as (p & e & q & _ & _ & _ & ->).
    simpl. rewrite IH. lia.
  - intros first_call Hfirst pd Hin name.
    apply elem_of_replicate in Hin as [-> _].
    destruct Hdisks as [|d cs disks css Hd _]; [discriminate|].
    simpl in Hfirst. injection Hfirst as ->.
    apply components_on_Some in Hd as (p & e & q & _ & _ & _ & ->).
    eexists. split.
    + apply definition_run with (rest := concat css). by rewrite Hpc.
    + done.
Qed.

End Builder.

Section Stages.

Context {Component : Type} (Row : Type).
Variable run_preprocess : Z -> list Row -> list Row.

(** C8. In the job of every definition that [build_pipeline] returns, the
    preprocess stage is called with [max_records=2]; with a preprocess
    component that never forwards more records than [max_records], at most
    two records reach the evaluation stage, however many the input file
    holds. *)
Theorem preprocess_max_records pipeline_name name (w : World Component) p e q
    (datastore : gmap string (list Row)) (rows : list Row) :
  Platform.honours_max_records Row run_preprocess ->
  descriptors w !! "components/preprocess.yaml" = Some p ->
  descriptors w !! "../flows/experiment/flow.dag.yaml" = Some e ->
  descriptors w !! "components/postprocess.yaml" = Some q ->
  datastore !! "azureml://datastores/workspaceblobstore/paths/data.jsonl" = Some rows ->
  exists pipeline_definition w' job preprocess,
    build_pipeline pipeline_name w = (Ret pipeline_definition, w') /\
    pipeline_definition name w' = (Ret job, w') /\
    jobs job !! 0%nat = Some preprocess /\
    input_of preprocess "max_records" = Some (ArgInt 2) /\
    exists forwarded,
      Platform.forwarded_to_evaluation Row run_preprocess datastore job
      = Some forwarded /\
      (length forwarded <= 2)%nat.
Proof.
  intros Hmax Hp He Hq Hrows.
  destruct (first_three (pipeline_components (after_build w p e q)))
    as (a & b & c & rest & Hpc).
  { simpl. rewrite length_app. simpl. lia. }
  eexists _, _, _, (preprocess_node a).
  split; [by apply build_pipeline_run|].
  split; [by apply definition_run with (rest := rest)|].
  split; [done|]. split; [done|].
  exists (run_preprocess 2 rows). split.
  - unfold Platform.forwarded_to_evaluation, Platform.find_node,
      Platform.preprocess_output. simpl. by rewrite Hrows.
  - apply (Hmax 2 rows). lia.
Qed.

End Stages.

(** *** The example workspace *)

Lemma build_pipeline_three_stages_witness :
  pipeline_components example_world = [] /\
  exists pipeline_definition w' job,
    build_pipeline "my_pipeline" example_world = (Ret pipeline_definition, w') /\
    pipeline_definition "my_pipeline" w' = (Ret job, w') /\
    length (jobs job) = 3%nat /\
    node_component <$> jobs job
    = ["preprocess"; "web_classification_flow"; "postprocess"] /\
    node_name <$> jobs job = ["preprocess"; "experiment"; "postprocess"].
Proof.
  split; [reflexivity|].
  apply (build_pipeline_three_stages "my_pipeline" "my_pipeline" example_world
           "preprocess" "web_classification_flow" "postprocess");
    reflexivity.
Defined.

Lemma build_pipeline_wiring_witness :
  exists pipeline_definition w' job preprocess experiment postprocess,
    build_pipeline "my_pipeline" example_world = (Ret pipeline_definition, w') /\
    pipeline_definition "my_pipeline" w' = (Ret job, w') /\
    jobs job = [preprocess; experiment; postprocess] /\
    is_Some (output_at preprocess "output_data_path") /\
    input_of experiment "data" = Some (output_of preprocess "output_data_path") /\
    is_Some (output_at experiment "flow_outputs") /\
    input_of postprocess "input_data_path"
    = Some (output_of experiment "flow_outputs").
Proof.
  apply (build_pipeline_wiring "my_pipeline" "my_pipeline" example_world
           "preprocess" "web_classification_flow" "postprocess");
    reflexivity.
Defined.

Lemma build_pipeline_data_paths_witness :
  AML_DATASTORE_PATH_PREFIX = "azureml://datastores/workspaceblobstore/paths/" /\
  exists pipeline_definition w' job,
    build_pipeline "my_pipeline" example_world = (Ret pipeline_definition, w') /\
    pipeline_definition "my_pipeline" w' = (Ret job, w') /\
    preprocess_reads_data job /\ evaluation_writes_pf_output job.
Proof.
  apply (build_pipeline_data_paths "my_pipeline" "my_pipeline" example_world
           "preprocess" "web_classification_flow" "postprocess");
    reflexivity.
Defined.

(** C3, as the specification states it, fails on the job that the script
    builds: the postprocess stage is given no output at all, so none at
    [postprocess.jsonl]. *)
Lemma postprocess_jsonl_not_an_output :
  ~ (forall pipeline_definition w' job,
       build_pipeline AML_PIPELINE_NAME example_world = (Ret pipeline_definition, w') ->
       pipeline_definition AML_PIPELINE_NAME w' = (Ret job, w') ->
       exchanges_at_fixed_paths job).
Proof.
  intros Hclaim.
  pose proof (build_pipeline_run AML_PIPELINE_NAME example_world
                "preprocess" "web_classification_flow" "postprocess"
                eq_refl eq_refl eq_refl) as Hbuild.
  pose proof (definition_run AML_PIPELINE_NAME AML_PIPELINE_NAME
                (after_build example_world
                   "preprocess" "web_classification_flow" "postprocess")
                "preprocess" "web_classification_flow" "postprocess" []
                eq_refl) as Hcall.
  destruct (Hclaim _ _ _ Hbuild Hcall) as (_ & _ & nd & Hnd & port & o & Hout & _).
  simpl in Hnd. injection Hnd as <-. discriminate Hout.
Qed.

Lemma build_pipeline_loads_three_witness :
  exists pipeline_definition w',
    build_pipeline "my_pipeline" example_world = (Ret pipeline_definition, w') /\
    loaded w' = loaded example_world ++ ["components/preprocess.yaml";
                                         "../flows/experiment/flow.dag.yaml";
                                         "components/postprocess.yaml"] /\
    submitted w' = submitted example_world /\
    streamed w' = streamed example_world /\
    forall name, exists job,
      pipeline_definition name w' = (Ret job, w') /\
      job_display_name job = "my_pipeline" /\
      job_inputs job = [("name", name)].
Proof.
  apply (build_pipeline_loads_three "my_pipeline" example_world
           "preprocess" "web_classification_flow" "postprocess");
    reflexivity.
Defined.

Lemma build_pipeline_not_idempotent_witness :
  exists pipeline_definitions w',
    build_repeatedly [example_descriptors; edited_descriptors] "my_pipeline"
      example_world = (Ret pipeline_definitions, w') /\
    length pipeline_definitions = 2%nat /\
    length (pipeline_components w') = 6%nat /\
    forall first_call,
      Some ["preprocess"; "web_classification_flow"; "postprocess"] = Some first_call ->
      forall pipeline_definition, pipeline_definition ∈ pipeline_definitions ->
        forall name, exists job,
          pipeline_definition name w' = (Ret job, w') /\
          node_component <$> jobs job = first_call.
Proof.
  apply (build_pipeline_not_idempotent
           [example_descriptors; edited_descriptors]
           [["preprocess"; "web_classification_flow"; "postprocess"];
            ["preprocess_v2"; "web_classification_flow_v2"; "postprocess_v2"]]
           "my_pipeline" example_world).
  - reflexivity.
  - repeat constructor.
Defined.

Lemma preprocess_max_records_witness :
  exists pipeline_definition w' job preprocess,
    build_pipeline "my_pipeline" example_world = (Ret pipeline_definition, w') /\
    pipeline_definition "my_pipeline" w' = (Ret job, w') /\
    jobs job !! 0%nat = Some preprocess /\
    input_of preprocess "max_records" = Some (ArgInt 2) /\
    exists forwarded,
      Platform.forwarded_to_evaluation string Platform.head_records
        {[ "azureml://datastores/workspaceblobstore/paths/data.jsonl"
           := ["{}"; "{}"; "{}"; "{}"] ]} job
      = Some forwarded /\
      (length forwarded <= 2)%nat.
Proof.
  apply (preprocess_max_records string Platform.head_records
           "my_pipeline" "my_pipeline" example_world
           "preprocess" "web_classification_flow" "postprocess"
           {[ "azureml://datastores/workspaceblobstore/paths/data.jsonl"
              := ["{}"; "{}"; "{}"; "{}"] ]} ["{}"; "{}"; "{}"; "{}"]);
    try reflexivity.
  intros n rows Hn. unfold Platform.head_records.
  rewrite length_firstn. lia.
Defined.

End RunPipelineSpec.

(* ===================================================================== *)
(** * Properties of the command line of postprocess.py *)
(* ===================================================================== *)

Module ArgparseSpec.

Import Argparse.

Example parse_flag_value :
  parse_known_args ["--input_data_path"; "out/pf_output.jsonl"]
  = Parsed {| input_data_path := Some "out/pf_output.jsonl" |} [].
Proof. reflexivity. Qed.

Example parse_flag_equals_value :
  parse_known_args ["--input_data_path=-x.jsonl"; "--verbose"; "7"]
  = Parsed {| input_data_path := Some "-x.jsonl" |} ["--verbose"; "7"].
Proof. reflexivity. Qed.

Example parse_no_abbreviation :
  parse_known_args ["--input_data"; "a.jsonl"]
  = Parsed {| input_data_path := None |} ["--input_data"; "a.jsonl"].
Proof. reflexivity. Qed.

Example parse_flag_without_value :
  parse_known_args ["--input_data_path"]
  = UsageError "expected one argument".
Proof. reflexivity. Qed.

Example parse_flag_then_option :
  parse_known_args ["--input_data_path"; "--verbose"]
  = UsageError "expected one argument".
Proof. reflexivity. Qed.

Example parse_help : parse_known_args ["-x"; "--help"; "--input_data_path"] = Help.
Proof. reflexivity. Qed.

Example parse_last_wins :
  parse_known_args ["--input_data_path"; "a"; "--input_data_path=b"]
  = Parsed {| input_data_path := Some "b" |} [].
Proof. reflexivity. Qed.

Lemma classify_unrecognized args :
  Forall (fun s => unrecognized s = true) args ->
  forall after_sep, exists tokens,
    classify after_sep args = Some tokens /\
    Forall (fun t => ignorable t = true) tokens.
Proof.
  induction 1 as [|s args Hs _ IH]; intros after_sep.
  - exists []. by split.
  - cbn [classify]. destruct after_sep.
    { destruct (IH true) as (ts & -> & Hts). eexists. split; [done|].
      by constructor. }
    destruct (String.eqb s "--").
    { destruct (IH true) as (ts & -> & Hts). eexists. split; [done|].
      by constructor. }
    unfold unrecognized in Hs.
    destruct (parse_optional s) as [|[[[a|] os] ex]|]; try discriminate.
    + destruct (IH false) as (ts & -> & Hts). eexists. split; [done|].
      by constructor.
    + destruct (IH false) as (ts & -> & Hts). eexists. split; [done|].
      by constructor.
Qed.

Lemma consume_ignorable tokens :
  Forall (fun t => ignorable t = true) tokens ->
  forall mode ns extras, mode <> WantValue ->
    exists extras', consume mode tokens ns extras = Parsed ns extras'.
Proof.
  induction 1 as [|t tokens Ht _ IH]; intros mode ns extras Hmode.
  - exists extras. by destruct mode.
  - destruct t as [s| |s [[[a|] os] ex]]; try discriminate Ht;
      destruct mode; try done; cbn [consume]; by apply IH.
Qed.

(** Without a string that the parser knows, the namespace keeps the
    default. *)
Lemma parse_unrecognized args :
  Forall (fun s => unrecognized s = true) args ->
  exists extras, parse_known_args args = Parsed {| input_data_path := None |} extras.
Proof.
  intros Hargs. unfold parse_known_args.
  destruct (classify_unrecognized args Hargs false) as (ts & -> & Hts).
  by apply consume_ignorable.
Qed.

Lemma classify_app xs rest :
  Forall (fun s => unrecognized s = true /\ s <> "--") xs ->
  exists tokens,
    Forall (fun t => ignorable t = true /\ t <> TSep) tokens /\
    classify false (xs ++ rest)
    = match classify false rest with
      | Some ts => Some (tokens ++ ts)
      | None => None
      end.
Proof.
  induction 1 as [|s xs [Hs Hsep] _ (ts & Hts & IH)].
  - exists []. split; [done|]. simpl. by destruct (classify false rest).
  - cbn [app classify]. apply String.eqb_neq in Hsep as ->.
    unfold unrecognized in Hs. rewrite IH.
    destruct (parse_optional s) as [|[[[a|] os] ex]|]; try discriminate.
    + exists (TArg s :: ts). split; [by constructor|].
      by destruct (classify false rest).
    + exists (TOpt s (None, os, ex) :: ts). split; [by constructor|].
      by destruct (classify false rest).
Qed.

Lemma consume_scan_app tokens rest :
  Forall (fun t => ignorable t = true /\ t <> TSep) tokens ->
  forall ns extras, exists extras',
    consume Scan (tokens ++ rest) ns extras = consume Scan rest ns extras'.
Proof.
  induction 1 as [|t tokens [Ht Hsep] _ IH]; intros ns extras.
  - by exists extras.
  - destruct t as [s| |s [[[a|] os] ex]]; try discriminate Ht; try done;
      cbn [app consume]; apply IH.
Qed.

(** The flag followed by a word gives this word as the path, whatever
    unknown strings stand before and after. *)
Lemma parse_flag_among_unrecognized xs path ys :
  Forall (fun s => unrecognized s = true /\ s <> "--") xs ->
  positional path = true ->
  Forall (fun s => unrecognized s = true) ys ->
  passes_input_data_path (xs ++ "--input_data_path" :: path :: ys) path.
Proof.
  intros Hxs Hpath Hys. unfold passes_input_data_path, parse_known_args.
  destruct (classify_app xs ("--input_data_path" :: path :: ys) Hxs)
    as (txs & Htxs & ->).
  assert (path <> "--") as Hsep.
  { intros ->. discriminate Hpath. }
  apply String.eqb_neq in Hsep.
  unfold positional in Hpath.
  destruct (parse_optional path) eqn:Hcl; try discriminate.
  destruct (classify_unrecognized ys Hys false) as (tys & Hcys & Htys).
  assert (classify false ("--input_data_path" :: path :: ys)
          = Some (TOpt "--input_data_path"
                    (Some StoreInputDataPath, "--input_data_path", None)
                  :: TArg path :: tys)) as ->.
  { change (classify false ("--input_data_path" :: path :: ys))
      with (match classify false (path :: ys) with
            | Some ts => Some (TOpt "--input_data_path"
                                 (Some StoreInputDataPath, "--input_data_path", None)
                               :: ts)
            | None => None
            end).
    cbn [classify]. by rewrite Hsep, Hcl, Hcys. }
  destruct (consume_scan_app txs
              (TOpt "--input_data_path"
                 (Some StoreInputDataPath, "--input_data_path", None)
               :: TArg path :: tys) Htxs {| input_data_path := None |} [])
    as (extras' & ->).
  cbn [consume]. by apply consume_ignorable.
Qed.

End ArgparseSpec.

(* ===================================================================== *)
(** * Properties of src/postprocess.py *)
(* ===================================================================== *)

Module PostprocessSpec.

Import Py Postprocess.

Lemma parse_args_parsed w ns extras :
  Argparse.parse_known_args (argv w) = Argparse.Parsed ns extras ->
  parse_args w = (Ret ns, w).
Proof.
  intros Hparse. unfold parse_args, parse_known_args, bind, get, ret.
  by rewrite Hparse.
Qed.

(** Whatever the command line, [parse_args] leaves the files alone. *)
Lemma parse_args_files w :
  files (parse_args w).2 = files w /\ argv (parse_args w).2 = argv w.
Proof.
  unfold parse_args, parse_known_args, write_stdout, write_stderr,
    bind, get, ret, raise, modify.
  by destruct (Argparse.parse_known_args (argv w)).
Qed.


Section WithPandas.

Variable DataFrame : Type.
Variable read_json : gmap string string -> option string -> Outcome DataFrame.
Variable to_string : DataFrame -> string.
Variable nrows : DataFrame -> nat.
Variable valid_json : string -> bool.

Local Abbreviation main := (main DataFrame read_json to_string).
Local Abbreviation script := (script DataFrame read_json to_string).

(** The world after [print(input_data_df)]. *)
Let printed (w : World) (df : DataFrame) : World :=
  {| argv := argv w; files := files w;
     stdout := stdout w ++ [to_string df]; stderr := stderr w |}.

Lemma main_parsed w ns extras :
  Argparse.parse_known_args (argv w) = Argparse.Parsed ns extras ->
  main w
  = match read_json (files w) (Argparse.input_data_path ns) with
    | Ret df => (Ret tt, printed w df)
    | Raise e => (Raise e, w)
    end.
Proof.
  intros Hparse. unfold Postprocess.main. unfold bind at 1.
  rewrite (parse_args_parsed w ns extras Hparse).
  unfold bind, get, lift, write_stdout, modify, ret.
  by destruct (read_json (files w) (Argparse.input_data_path ns)).
Qed.



(** C6. The script writes no file: whatever the command line and the
    files, the files after [main], and after the whole script, are the
    files before. When [main] returns, its only trace is one more chunk on
    the standard output, the text of the table that the loader returned. *)
Theorem main_writes_no_file w :
  files (main w).2 = files w /\
  files (script w).2 = files w /\
  (forall w', main w = (Ret tt, w') ->
     exists ns df,
       parse_args w = (Ret ns, w) /\
       read_json (files w) (Argparse.input_data_path ns) = Ret df /\
       w' = {| argv := argv w; files := files w;
               stdout := stdout w ++ [to_string df]; stderr := stderr w |}).
Proof.
  assert (files (main w).2 = files w) as Hmain.
  { unfold Postprocess.main. unfold bind at 1.
    pose proof (parse_args_files w) as [Hfiles _].
    destruct (parse_args w) as [[ns|e] w1] eqn:Hargs; [|exact Hfiles].
    simpl in Hfiles.
    unfold bind, get, lift, write_stdout, modify, ret.
    destruct (read_json (files w1) (Argparse.input_data_path ns)); simpl; done. }
  split; [exact Hmain|]. split.
  - unfold Postprocess.script.
    destruct (main w) as [[[]|e] w1]; simpl in *; [done|].
    by destruct e.
  - intros w' Hret.
    destruct (Argparse.parse_known_args (argv w)) as [ns extras| | |] eqn:Hparse.
    + rewrite (main_parsed w ns extras Hparse) in Hret.
      exists ns.
      destruct (read_json (files w) (Argparse.input_data_path ns)) as [df|e];
        [|discriminate].
      exists df. split; [by apply parse_args_parsed with extras|].
      split; [done|]. by injection Hret as <-.
    + unfold Postprocess.main, parse_args, parse_known_args, bind, get in Hret.
      rewrite Hparse in Hret. discriminate.
    + unfold Postprocess.main, parse_args, parse_known_args, bind, get in Hret.
      rewrite Hparse in Hret. discriminate.
    + unfold Postprocess.main, parse_args, parse_known_args, bind, get in Hret.
      rewrite Hparse in Hret. discriminate.
Qed.

(** C10. When the command line holds neither [--input_data_path] nor any
    other string that the parser knows, [parse_args] reports no usage
    error: it returns a namespace whose [input_data_path] is [None], and
    prints nothing. Unknown strings are dropped as well when they surround
    the flag and its value. With [None] in place of the path the failure
    comes later: it is the loader's, and [main] ends with it. *)
Theorem parse_args_without_flag :
  raises_on_None DataFrame read_json ->
  (forall w,
     Forall (fun s => Argparse.unrecognized s = true) (argv w) ->
     parse_args w = (Ret {| Argparse.input_data_path := None |}, w) /\
     exists e, read_json (files w) None = Raise e /\ main w = (Raise e, w)) /\
  (forall w xs path ys,
     Forall (fun s => Argparse.unrecognized s = true /\ s <> "--") xs ->
     Argparse.positional path = true ->
     Forall (fun s => Argparse.unrecognized s = true) ys ->
     argv w = xs ++ "--input_data_path" :: path :: ys ->
     parse_args w = (Ret {| Argparse.input_data_path := Some path |}, w)).
Proof.
  intros Hloader. split.
  - intros w Hargv.
    destruct (ArgparseSpec.parse_unrecognized (argv w) Hargv) as [extras Hparse].
    split; [by apply parse_args_parsed with extras|].
    destruct (Hloader (files w)) as [e Hread]. exists e.
    split; [exact Hread|].
    rewrite (main_parsed w _ extras Hparse). simpl. by rewrite Hread.
  - intros w xs path ys Hxs Hpath Hys Hargv.
    destruct (ArgparseSpec.parse_flag_among_unrecognized xs path ys Hxs Hpath Hys)
      as [extras Hparse].
    rewrite <- Hargv in Hparse. by apply parse_args_parsed with extras.
Qed.

End WithPandas.

(** *** The reference loader meets the three expectations *)



Lemma ref_raises_on_None : raises_on_None (list string) ref_read_json.
Proof. intros fs. by exists (LibError "ValueError"). Qed.

(** *** The example runs *)



Lemma parse_args_without_flag_witness :
  parse_args example_world_no_flag
  = (Ret {| Argparse.input_data_path := None |}, example_world_no_flag) /\
  exists e,
    ref_read_json (files example_world_no_flag) None = Raise e /\
    main (list string) ref_read_json ref_to_string example_world_no_flag
    = (Raise e, example_world_no_flag).
Proof.
  apply (parse_args_without_flag (list string) ref_read_json ref_to_string
           ref_raises_on_None).
  repeat constructor.
Defined.

End PostprocessSpec.

(* ===================================================================== *)
(** * Further properties of run_pipeline.py *)
(* ===================================================================== *)

Module RunPipelineMore.

Import Py RunPipeline Graph RunPipelineSpec.

Section Builder.

Context {Component : Type}.
Implicit Types (w : World Component) (p e q : Component).

Lemma after_loads_three w p e q :
  pipeline_components (after_build w p e q) = pipeline_components w ++ [p; e; q] /\
  loaded (after_build w p e q) = loaded (after_loads w 3).
Proof. done. Qed.

(** X1. [build_pipeline] appends all three components or none. When the
    three descriptors load, the module-level list grows by these three, in
    the order of the paths. Otherwise the call raises at the first path, in
    this order, that has no descriptor: the later paths are not tried and
    the list is left as it was. *)
Theorem build_pipeline_all_or_nothing pipeline_name w :
  (exists p e q,
     components_on (descriptors w) = Some [p; e; q] /\
     build_pipeline pipeline_name w
     = (Ret (create_dynamic_evaluation_pipeline pipeline_name),
        after_build w p e q)) \/
  (exists k path,
     components_on (descriptors w) = None /\
     component_paths !! k = Some path /\
     descriptors w !! path = None /\
     (forall j path', (j < k)%nat -> component_paths !! j = Some path' ->
                      is_Some (descriptors w !! path')) /\
     (build_pipeline pipeline_name w).1 = Raise (LibError "load_component") /\
     (build_pipeline pipeline_name w).2 = after_loads w (S k)).
Proof.
  destruct (descriptors w !! "components/preprocess.yaml") as [p|] eqn:Hp;
    [destruct (descriptors w !! "../flows/experiment/flow.dag.yaml") as [e|] eqn:He;
     [destruct (descriptors w !! "components/postprocess.yaml") as [q|] eqn:Hq|]|].
  - left. exists p, e, q. split.
    + unfold components_on. by rewrite Hp, He, Hq.
    + by apply build_pipeline_run.
  - right. exists 2%nat, "components/postprocess.yaml".
    split; [unfold components_on; by rewrite Hp, He, Hq|].
    split; [done|]. split; [done|]. split.
    + intros [|[|j]] path' Hj Heq; try lia;
        simpl in Heq; injection Heq as <-; by eexists.
    + py_unfold. simpl. rewrite Hp. simpl. rewrite He. simpl. rewrite Hq.
      simpl. unfold after_loads. simpl. by rewrite <- !app_assoc.
  - right. exists 1%nat, "../flows/experiment/flow.dag.yaml".
    split; [unfold components_on; by rewrite Hp, He|].
    split; [done|]. split; [done|]. split.
    + intros [|j] path' Hj Heq; try lia;
        simpl in Heq; injection Heq as <-; by eexists.
    + py_unfold. simpl. rewrite Hp. simpl. rewrite He.
      simpl. unfold after_loads. simpl. by rewrite <- !app_assoc.
  - right. exists 0%nat, "components/preprocess.yaml".
    split; [unfold components_on; by rewrite Hp|].
    split; [done|]. split; [done|]. split.
    + intros j path' Hj. lia.
    + py_unfold. simpl. by rewrite Hp.
Qed.

(** X2. A pipeline definition can be called exactly when the module-level
    list holds at least three components: the job is then built from the
    first three; with fewer, the call raises [IndexError]. Either way the
    call changes nothing: it loads, appends and submits nothing. *)
Theorem pipeline_definition_needs_three pipeline_name name w :
  (create_dynamic_evaluation_pipeline pipeline_name name w).2 = w /\
  ((3 <= length (pipeline_components w))%nat ->
   exists job,
     create_dynamic_evaluation_pipeline pipeline_name name w = (Ret job, w) /\
     node_component <$> jobs job = take 3 (pipeline_components w)) /\
  ((length (pipeline_components w) < 3)%nat ->
   create_dynamic_evaluation_pipeline pipeline_name name w = (Raise IndexError, w)).
Proof.
  destruct (decide (3 <= length (pipeline_components w))%nat) as [Hlen|Hlen].
  - destruct (first_three _ Hlen) as (a & b & c & rest & Hpc).
    pose proof (definition_run pipeline_name name w a b c rest Hpc) as Hrun.
    split; [by rewrite Hrun|]. split; [|lia].
    intros _. eexists. split; [exact Hrun|]. by rewrite Hpc.
  - assert (length (pipeline_components w) < 3)%nat as Hlt by lia.
    pose proof (definition_run_short pipeline_name name w Hlt) as Hrun.
    split; [by rewrite Hrun|]. split; [lia|]. done.
Qed.

(** X3. The job of a pipeline definition is a chain in the order of
    creation. The three nodes have distinct names and refer only to output
    ports that an earlier node has set; the first depends on no node, the
    second on the first only and the third on the second only. *)
Theorem job_is_a_chain pipeline_name name w job :
  create_dynamic_evaluation_pipeline pipeline_name name w = (Ret job, w) ->
  well_wired (jobs job) = true /\
  dependencies (jobs job) = [[]; ["preprocess"]; ["experiment"]] /\
  node_name <$> jobs job = ["preprocess"; "experiment"; "postprocess"].
Proof.
  intros Hrun.
  destruct (decide (3 <= length (pipeline_components w))%nat) as [Hlen|Hlen].
  - destruct (first_three _ Hlen) as (a & b & c & rest & Hpc).
    rewrite (definition_run pipeline_name name w a b c rest Hpc) in Hrun.
    injection Hrun as <-. done.
  - rewrite definition_run_short in Hrun by lia. discriminate.
Qed.

(** X4. No stage of a job touches [postprocess.jsonl]: the name is defined
    in the module and used by no node, as an input or as an output, and the
    postprocess node has no output set at all. *)
Theorem postprocess_file_name_unused pipeline_name name w job :
  create_dynamic_evaluation_pipeline pipeline_name name w = (Ret job, w) ->
  (forall nd, nd ∈ jobs job ->
     ~ reads_from nd AML_DATASTORE_POSTPROCESS_FILE_NAME /\
     ~ writes_to nd AML_DATASTORE_POSTPROCESS_FILE_NAME) /\
  (forall nd, jobs job !! 2%nat = Some nd -> node_outputs nd = []).
Proof.
  intros Hrun.
  destruct (decide (3 <= length (pipeline_components w))%nat) as [Hlen|Hlen];
    [|rewrite definition_run_short in Hrun by lia; discriminate].
  destruct (first_three _ Hlen) as (a & b & c & rest & Hpc).
  rewrite (definition_run pipeline_name name w a b c rest Hpc) in Hrun.
  injection Hrun as <-. split.
  - intros nd Hnd. simpl in Hnd.
    apply elem_of_cons in Hnd as [->|Hnd];
      [|apply elem_of_cons in Hnd as [->|Hnd];
        [|apply list_elem_of_singleton in Hnd as ->]].
    + split.
      * intros (key & i & Hin & Hpath). unfold input_of in Hin. simpl in Hin.
        repeat case_match; simplify_eq; discriminate Hpath.
      * intros (port & o & Hout & Hpath). unfold output_at in Hout. simpl in Hout.
        repeat case_match; simplify_eq; discriminate Hpath.
    + split.
      * intros (key & i & Hin & Hpath). unfold input_of in Hin. simpl in Hin.
        repeat case_match; simplify_eq.
      * intros (port & o & Hout & Hpath). unfold output_at in Hout. simpl in Hout.
        repeat case_match; simplify_eq; discriminate Hpath.
    + split.
      * intros (key & i & Hin & Hpath). unfold input_of in Hin. simpl in Hin.
        repeat case_match; simplify_eq.
      * intros (port & o & Hout & Hpath). discriminate Hout.
  - intros nd [= <-]. done.
Qed.

(** X12. The names do not reach the graph. The pipeline name given to the
    builder and the [name] given to the definition end up in the display
    name and in the inputs of the job only: two calls in the same state
    build the same nodes, whatever the names. *)
Theorem names_do_not_change_the_nodes pipeline_name1 pipeline_name2 name1 name2
    w job1 job2 :
  create_dynamic_evaluation_pipeline pipeline_name1 name1 w = (Ret job1, w) ->
  create_dynamic_evaluation_pipeline pipeline_name2 name2 w = (Ret job2, w) ->
  jobs job1 = jobs job2 /\
  job_display_name job1 = pipeline_name1 /\ job_inputs job1 = [("name", name1)] /\
  job_display_name job2 = pipeline_name2 /\ job_inputs job2 = [("name", name2)].
Proof.
  intros Hrun1 Hrun2.
  destruct (decide (3 <= length (pipeline_components w))%nat) as [Hlen|Hlen];
    [|rewrite definition_run_short in Hrun1 by lia; discriminate].
  destruct (first_three _ Hlen) as (a & b & c & rest & Hpc).
  rewrite (definition_run pipeline_name1 name1 w a b c rest Hpc) in Hrun1.
  rewrite (definition_run pipeline_name2 name2 w a b c rest Hpc) in Hrun2.
  injection Hrun1 as <-. injection Hrun2 as <-. done.
Qed.

End Builder.

Section Script.

Context {Component : Type}.
Variable service_job_name : PipelineJob Component -> string.
Implicit Types (w : World Component) (p e q : Component).

(** X5. Run in a freshly loaded module with the three descriptors on disk,
    the script submits exactly one job and then streams exactly this job,
    under the name the service gave it. The job is submitted to the
    experiment [pf_in_pipeline_experiment]; it is the job of the pipeline
    definition called with [my_pipeline], with its three stages, and its
    default compute is the value of [AML_COMPUTE_TARGET]: the one of the
    process environment when it is set there, else the one of the [.env]
    file, else [None]. *)
Theorem main_submits_one_job w p e q :
  pipeline_components w = [] ->
  descriptors w !! "components/preprocess.yaml" = Some p ->
  descriptors w !! "../flows/experiment/flow.dag.yaml" = Some e ->
  descriptors w !! "components/postprocess.yaml" = Some q ->
  exists w' job,
    main service_job_name w = (Ret tt, w') /\
    submitted w' = submitted w ++ [(job, "pf_in_pipeline_experiment")] /\
    streamed w' = streamed w ++ [service_job_name job] /\
    pipeline_components w' = [p; e; q] /\
    job_display_name job = "my_pipeline" /\
    job_inputs job = [("name", "my_pipeline")] /\
    jobs job = [preprocess_node p; experiment_node e; postprocess_node q] /\
    default_compute job
    = match environ w !! "AML_COMPUTE_TARGET" with
      | Some target => Some target
      | None => dotenv w !! "AML_COMPUTE_TARGET"
      end.
Proof.
  intros Hnil Hp He Hq.
  unfold main. py_unfold. simpl.
  rewrite Hp. simpl. rewrite He. simpl. rewrite Hq. simpl.
  rewrite Hnil. simpl.
  eexists _, _. split; [reflexivity|]. simpl.
  repeat (split; [reflexivity|]).
  rewrite lookup_union.
  destruct (environ w !! "AML_COMPUTE_TARGET"),
           (dotenv w !! "AML_COMPUTE_TARGET"); reflexivity.
Qed.

(** X6. When one of the three descriptors cannot be loaded, the script ends
    with the exception of [load_component] before it reaches the job
    service: no job is submitted or streamed, and no component is appended
    to the module-level list. *)
Theorem main_fails_before_submitting w :
  components_on (descriptors w) = None ->
  (main service_job_name w).1 = Raise (LibError "load_component") /\
  submitted (main service_job_name w).2 = submitted w /\
  streamed (main service_job_name w).2 = streamed w /\
  pipeline_components (main service_job_name w).2 = pipeline_components w.
Proof.
  unfold components_on. intros Hnone.
  unfold main. py_unfold. simpl.
  destruct (descriptors w !! "components/preprocess.yaml") as [p|]; simpl; [|done].
  destruct (descriptors w !! "../flows/experiment/flow.dag.yaml") as [e|];
    simpl; [|done].
  destruct (descriptors w !! "components/postprocess.yaml") as [q|];
    simpl; [discriminate|done].
Qed.

End Script.

(** *** The example workspace, again *)

Lemma job_is_a_chain_witness :
  exists job,
    create_dynamic_evaluation_pipeline "my_pipeline" "my_pipeline"
      (after_build example_world "preprocess" "web_classification_flow" "postprocess")
    = (Ret job,
       after_build example_world "preprocess" "web_classification_flow" "postprocess") /\
    well_wired (jobs job) = true /\
    dependencies (jobs job) = [[]; ["preprocess"]; ["experiment"]] /\
    node_name <$> jobs job = ["preprocess"; "experiment"; "postprocess"].
Proof.
  eexists. split; [reflexivity|].
  apply (job_is_a_chain "my_pipeline" "my_pipeline"
           (after_build example_world
              "preprocess" "web_classification_flow" "postprocess")).
  reflexivity.
Defined.

Lemma postprocess_file_name_unused_witness :
  exists job,
    create_dynamic_evaluation_pipeline "my_pipeline" "my_pipeline"
      (after_build example_world "preprocess" "web_classification_flow" "postprocess")
    = (Ret job,
       after_build example_world "preprocess" "web_classification_flow" "postprocess") /\
    (forall nd, nd ∈ jobs job ->
       ~ reads_from nd AML_DATASTORE_POSTPROCESS_FILE_NAME /\
       ~ writes_to nd AML_DATASTORE_POSTPROCESS_FILE_NAME) /\
    (forall nd, jobs job !! 2%nat = Some nd -> node_outputs nd = []).
Proof.
  eexists. split; [reflexivity|].
  apply (postprocess_file_name_unused "my_pipeline" "my_pipeline"
           (after_build example_world
              "preprocess" "web_classification_flow" "postprocess")).
  reflexivity.
Defined.

Lemma names_do_not_change_the_nodes_witness :
  exists job1 job2,
    create_dynamic_evaluation_pipeline "my_pipeline" "my_pipeline"
      (after_build example_world "preprocess" "web_classification_flow" "postprocess")
    = (Ret job1,
       after_build example_world "preprocess" "web_classification_flow" "postprocess") /\
    create_dynamic_evaluation_pipeline "nightly" "run-7"
      (after_build example_world "preprocess" "web_classification_flow" "postprocess")
    = (Ret job2,
       after_build example_world "preprocess" "web_classification_flow" "postprocess") /\
    jobs job1 = jobs job2 /\
    job_display_name job1 = "my_pipeline" /\ job_inputs job1 = [("name", "my_pipeline")] /\
    job_display_name job2 = "nightly" /\ job_inputs job2 = [("name", "run-7")].
Proof.
  eexists _, _. split; [reflexivity|]. split; [reflexivity|].
  apply (names_do_not_change_the_nodes "my_pipeline" "nightly" "my_pipeline" "run-7"
           (after_build example_world
              "preprocess" "web_classification_flow" "postprocess"));
    reflexivity.
Defined.

Lemma main_submits_one_job_witness :
  pipeline_components example_world = [] /\
  exists w' job,
    main (fun job : PipelineJob string => job_display_name job) example_world
    = (Ret tt, w') /\
    submitted w' = submitted example_world ++ [(job, "pf_in_pipeline_experiment")] /\
    streamed w' = streamed example_world ++ [job_display_name job] /\
    pipeline_components w' = ["preprocess"; "web_classification_flow"; "postprocess"] /\
    job_display_name job = "my_pipeline" /\
    job_inputs job = [("name", "my_pipeline")] /\
    jobs job = [preprocess_node "preprocess";
                experiment_node "web_classification_flow";
                postprocess_node "postprocess"] /\
    default_compute job
    = match environ example_world !! "AML_COMPUTE_TARGET" with
      | Some target => Some target
      | None => dotenv example_world !! "AML_COMPUTE_TARGET"
      end.
Proof.
  split; [reflexivity|].
  apply (main_submits_one_job (fun job : PipelineJob string => job_display_name job)
           example_world "preprocess" "web_classification_flow" "postprocess");
    reflexivity.
Defined.

Lemma main_fails_before_submitting_witness :
  (main (fun job : PipelineJob string => job_display_name job)
        (initial {| pipeline_components := []; descriptors := ∅;
                    loaded := []; environ := ∅; dotenv := ∅;
                    submitted := []; streamed := [] |})).1
  = Raise (LibError "load_component").
Proof.
  apply (main_fails_before_submitting
           (fun job : PipelineJob string => job_display_name job)
           (initial {| pipeline_components := []; descriptors := ∅;
                       loaded := []; environ := ∅; dotenv := ∅;
                       submitted := []; streamed := [] |})).
  reflexivity.
Defined.

End RunPipelineMore.

(* ===================================================================== *)
(** * Further properties of the command line of postprocess.py *)
(* ===================================================================== *)

Module ArgparseMore.

Import Argparse ArgparseSpec.

(** A string with one leading dash matches at most one option. *)
Lemma option_tuples_short c r :
  (length (if Str.startswith (String "-" (String c r)) "--" then []
           else get_option_tuples (String "-" (String c r))) <= 1)%nat.
Proof.
  destruct c as [[] [] [] [] [] [] [] []]; destruct r; vm_compute;
    repeat constructor.
Qed.

(** This parser never finds an option ambiguous. *)
Lemma parse_optional_not_ambiguous s : parse_optional s <> Ambiguous.
Proof.
  unfold parse_optional.
  destruct s as [|c0 [|c1 r]]; [done| |].
  - repeat case_match; done.
  - destruct (Ascii.eqb_spec c0 "-") as [->|_]; [|done]. cbn [negb].
    destruct (assoc option_string_actions (String "-" (String c1 r))); [done|].
    cbn [String.length Nat.eqb]. cbv zeta.
    match goal with
    | |- context [match ?x with Some _ => _ | None => _ end] => destruct x
    end; [done|].
    pose proof (option_tuples_short c1 r) as Hshort.
    destruct (if Str.startswith (String "-" (String c1 r)) "--" then []
              else get_option_tuples (String "-" (String c1 r)))
      as [|t [|t' l]]; simpl in Hshort; [|done|lia].
    repeat case_match; done.
Qed.

Lemma classify_total args : forall after_sep, is_Some (classify after_sep args).
Proof.
  induction args as [|s args IH]; intros after_sep; [by eexists|].
  cbn [classify]. destruct after_sep.
  { destruct (IH true) as [ts ->]. by eexists. }
  destruct (String.eqb s "--").
  { destruct (IH true) as [ts ->]. by eexists. }
  pose proof (parse_optional_not_ambiguous s) as Hs.
  destruct (parse_optional s); [| |done];
    destruct (IH false) as [ts ->]; by eexists.
Qed.

(** Unknown strings before the point of interest only add to [extras]. *)
Lemma parse_after_unrecognized xs rest :
  Forall (fun s => unrecognized s = true /\ s <> "--") xs ->
  exists tokens extras,
    classify false rest = Some tokens /\
    parse_known_args (xs ++ rest)
    = consume Scan tokens {| input_data_path := None |} extras.
Proof.
  intros Hxs. unfold parse_known_args.
  destruct (classify_app xs rest Hxs) as (txs & Htxs & ->).
  destruct (classify_total rest false) as [ts Hts]. rewrite Hts.
  destruct (consume_scan_app txs ts Htxs {| input_data_path := None |} [])
    as (extras & ->).
  by exists ts, extras.
Qed.

Lemma consume_pass tokens rest :
  Forall (fun t => ignorable t = true /\ t <> TSep) tokens ->
  forall mode ns extras, mode <> WantValue ->
    exists mode' extras',
      mode' <> WantValue /\
      consume mode (tokens ++ rest) ns extras = consume mode' rest ns extras'.
Proof.
  induction 1 as [|t tokens [Ht Hsep] _ IH]; intros mode ns extras Hmode.
  - by exists mode, extras.
  - destruct t as [s| |s [[[a|] os] ex]]; try discriminate Ht; try done;
      destruct mode; try done; cbn [app consume]; by apply IH.
Qed.





Lemma parse_repeated_flag xs p1 ys p2 zs :
  Forall (fun s => unrecognized s = true /\ s <> "--") xs ->
  positional p1 = true ->
  Forall (fun s => unrecognized s = true /\ s <> "--") ys ->
  positional p2 = true ->
  Forall (fun s => unrecognized s = true) zs ->
  passes_input_data_path
    (xs ++ "--input_data_path" :: p1 :: ys ++ "--input_data_path" :: p2 :: zs) p2.
Proof.
  intros Hxs Hp1 Hys Hp2 Hzs. unfold passes_input_data_path.
  destruct (parse_after_unrecognized xs
              ("--input_data_path" :: p1 :: ys ++ "--input_data_path" :: p2 :: zs)
              Hxs) as (ts & extras & Hts & ->).
  assert (forall p, positional p = true ->
            String.eqb p "--" = false /\ parse_optional p = Positional) as Hpos.
  { intros p Hp. split.
    - apply String.eqb_neq. intros ->. discriminate Hp.
    - unfold positional in Hp. by destruct (parse_optional p). }
  destruct (Hpos p1 Hp1) as [Hsep1 Hcl1]. destruct (Hpos p2 Hp2) as [Hsep2 Hcl2].
  destruct (classify_app ys ("--input_data_path" :: p2 :: zs) Hys)
    as (tys & Htys & Hcys).
  destruct (classify_unrecognized zs Hzs false) as (tzs & Hczs & Htzs).
  change (classify false
            ("--input_data_path" :: p1 :: ys ++ "--input_data_path" :: p2 :: zs))
    with (match classify false
                  (p1 :: ys ++ "--input_data_path" :: p2 :: zs) with
          | Some ts => Some (TOpt "--input_data_path"
                               (Some StoreInputDataPath, "--input_data_path", None)
                             :: ts)
          | None => None
          end) in Hts.
  cbn [classify] in Hts. rewrite Hsep1, Hcl1, Hcys in Hts.
  change (classify false ("--input_data_path" :: p2 :: zs))
    with (match classify false (p2 :: zs) with
          | Some ts => Some (TOpt "--input_data_path"
                               (Some StoreInputDataPath, "--input_data_path", None)
                             :: ts)
          | None => None
          end) in Hts.
  cbn [classify] in Hts. rewrite Hsep2, Hcl2, Hczs in Hts.
  injection Hts as <-. cbn [consume].
  destruct (consume_pass tys
              (TOpt "--input_data_path"
                 (Some StoreInputDataPath, "--input_data_path", None)
               :: TArg p2 :: tzs) Htys AfterValue
              {| input_data_path := Some p1 |} extras)
    as (mode' & extras' & Hmode' & ->); [done|].
  destruct mode'; [|done|]; cbn [consume]; by apply consume_ignorable.
Qed.




End ArgparseMore.

(* ===================================================================== *)
(** * Further properties of src/postprocess.py *)
(* ===================================================================== *)

Module PostprocessMore.

Import Py Postprocess.

Section WithPandas.

Variable DataFrame : Type.
Variable read_json : gmap string string -> option string -> Outcome DataFrame.
Variable to_string : DataFrame -> string.

Local Abbreviation main := (main DataFrame read_json to_string).
Local Abbreviation script := (script DataFrame read_json to_string).






(** X10. When [--input_data_path] is given twice, the value of the last
    occurrence is the path that [main] loads; the first one is dropped
    without a message. *)
Theorem last_flag_wins w xs p1 ys p2 zs :
  argv w = xs ++ "--input_data_path" :: p1
              :: ys ++ "--input_data_path" :: p2 :: zs ->
  Forall (fun s => Argparse.unrecognized s = true /\ s <> "--") xs ->
  Argparse.positional p1 = true ->
  Forall (fun s => Argparse.unrecognized s = true /\ s <> "--") ys ->
  Argparse.positional p2 = true ->
  Forall (fun s => Argparse.unrecognized s = true) zs ->
  parse_args w = (Ret {| Argparse.input_data_path := Some p2 |}, w) /\
  main w
  = match read_json (files w) (Some p2) with
    | Ret df => (Ret tt, {| argv := argv w; files := files w;
                            stdout := stdout w ++ [to_string df];
                            stderr := stderr w |})
    | Raise e => (Raise e, w)
    end.
Proof.
  intros Hargv Hxs Hp1 Hys Hp2 Hzs.
  destruct (ArgparseMore.parse_repeated_flag xs p1 ys p2 zs Hxs Hp1 Hys Hp2 Hzs)
    as [extras Hparse].
  rewrite <- Hargv in Hparse. split.
  - by apply PostprocessSpec.parse_args_parsed with extras.
  - by rewrite (PostprocessSpec.main_parsed DataFrame read_json to_string
                  w _ extras Hparse).
Qed.


End WithPandas.

(** *** Example command lines *)




Lemma last_flag_wins_witness :
  parse_args {| argv := ["--input_data_path"; "a.jsonl"; "--verbose";
                         "--input_data_path"; "pf_output.jsonl"];
                files := example_files; stdout := []; stderr := [] |}
  = (Ret {| Argparse.input_data_path := Some "pf_output.jsonl" |},
     {| argv := ["--input_data_path"; "a.jsonl"; "--verbose";
                 "--input_data_path"; "pf_output.jsonl"];
        files := example_files; stdout := []; stderr := [] |}).
Proof.
  apply (last_flag_wins (list string) ref_read_json ref_to_string
           {| argv := ["--input_data_path"; "a.jsonl"; "--verbose";
                       "--input_data_path"; "pf_output.jsonl"];
              files := example_files; stdout := []; stderr := [] |}
           [] "a.jsonl" ["--verbose"] "pf_output.jsonl" []).
  - reflexivity.
  - constructor.
  - reflexivity.
  - repeat constructor. discriminate.
  - reflexivity.
  - constructor.
Defined.


End PostprocessMore.
